(** * The CircleCI matrix generator [.circleci/regenerate.py]

    A shallow embedding of the generator and the properties of the job
    descriptors it emits.  Python dictionaries are kept as they are built:
    insertion-ordered association lists from keys to values, updated with
    [dict_set]; the nested values (strings, lists, dictionaries) form the
    type [pyval].  [filter_branch] is [None] or a string. *)

From Stdlib Require Import String Ascii List Bool Arith ZArith Lia.
Import ListNotations.
Open Scope string_scope.

(** ** Python values and builtins *)

#[local] Set Warnings "-register-all".

Inductive pyval : Type :=
| PyStr (s : string)
| PyList (l : list pyval)
| PyDict (kv : list (string * pyval)).

Module Py.

(** [d[k] = v]: replaces the value of an existing key in place, otherwise
    adds the key at the end. *)
Fixpoint dict_set (k : string) (v : pyval) (d : list (string * pyval))
  : list (string * pyval) :=
  match d with
  | [] => [(k, v)]
  | (k', v') :: r =>
      if k' =? k then (k, v) :: r else (k', v') :: dict_set k v r
  end.

(** [d.get(k)] *)
Fixpoint dict_get (k : string) (d : list (string * pyval)) : option pyval :=
  match d with
  | [] => None
  | (k', v) :: r => if k' =? k then Some v else dict_get k r
  end.

(** Truth value of an optional string: [None] and [''] are false. *)
Definition truthy (o : option string) : bool :=
  match o with
  | None => false
  | Some s => negb (s =? "")
  end.

(** [x in [s1, ..., sn]] for strings *)
Definition str_in (x : string) (l : list string) : bool :=
  existsb (String.eqb x) l.

(** [s.startswith(p)] *)
Definition startswith (s p : string) : bool := String.prefix p s.

(** [o == s] for an optional string [o] and a string [s] *)
Definition opt_eqb (o : option string) (s : string) : bool :=
  match o with
  | None => false
  | Some t => t =? s
  end.

(** [c * n] for a one-character string; a negative [n] gives ['']. *)
Fixpoint repeat_char (c : ascii) (n : nat) : string :=
  match n with
  | O => ""
  | S m => String c (repeat_char c m)
  end.

Definition str_mul (c : ascii) (n : Z) : string := repeat_char c (Z.to_nat n).

(** [enumerate(l)] *)
Definition enumerate {A : Type} (l : list A) : list (nat * A) :=
  combine (seq 0 (List.length l)) l.

(** Line boundaries of [str.splitlines] among the code points below 256. *)
Definition is_linebreak (c : ascii) : bool :=
  let n := nat_of_ascii c in
  (n =? 10)%nat || (n =? 13)%nat || (n =? 11)%nat || (n =? 12)%nat
  || (n =? 28)%nat || (n =? 29)%nat || (n =? 30)%nat || (n =? 133)%nat.

Definition is_cr (c : ascii) : bool := (nat_of_ascii c =? 13)%nat.
Definition is_lf (c : ascii) : bool := (nat_of_ascii c =? 10)%nat.

(** [s.splitlines()]: [cur] is the line being read ([None] when no
    character of it has been seen), [after_cr] tells that the previous
    character was a carriage return, so that a line feed that follows
    belongs to the same boundary. *)
Fixpoint splitlines_from (cur : option string) (after_cr : bool) (s : string)
  : list string :=
  match s with
  | EmptyString =>
      match cur with
      | Some l => [l]
      | None => []
      end
  | String c r =>
      if after_cr && is_lf c then splitlines_from cur false r
      else if is_linebreak c then
        match cur with
        | Some l => l
        | None => ""
        end :: splitlines_from None (is_cr c) r
      else
        splitlines_from
          (Some (match cur with Some l => l | None => "" end ++ String c ""))
          false r
  end.

Definition splitlines (s : string) : list string :=
  splitlines_from None false s.

(** [sep.join(l)] *)
Definition join (sep : string) (l : list string) : string :=
  String.concat sep l.

End Py.

(** ** Job descriptors

    A descriptor is a dictionary with a single key, the job type, whose value
    is the dictionary of the job's fields. *)

(** [v.get(k)] for a value that is a dictionary *)
Definition dict_field (k : string) (v : pyval) : option pyval :=
  match v with
  | PyDict kv => Py.dict_get k kv
  | _ => None
  end.

Definition job_key (d : pyval) : option string :=
  match d with
  | PyDict [(k, _)] => Some k
  | _ => None
  end.

Definition job_body (d : pyval) : list (string * pyval) :=
  match d with
  | PyDict [(_, PyDict body)] => body
  | _ => []
  end.

Definition job_field (f : string) (d : pyval) : option pyval :=
  Py.dict_get f (job_body d).

Definition job_name (d : pyval) : option string :=
  match job_field "name" d with
  | Some (PyStr s) => Some s
  | _ => None
  end.

Definition requires (d : pyval) : option pyval := job_field "requires" d.
Definition filters (d : pyval) : option pyval := job_field "filters" d.

Definition has_filters (d : pyval) : bool :=
  match filters d with
  | Some _ => true
  | None => false
  end.

(** ** The generator *)

Definition PYTHON_VERSIONS : list string := ["3.6"; "3.7"; "3.8"].

Definition rc_tag_regex : string := "/v[0-9]+(\.[0-9]+)*-rc[0-9]+/".

(** [gen_filter_branch_tree]; its arguments are the variadic [branches]. *)
Definition gen_filter_branch_tree (branches : list string) : pyval :=
  PyDict
    [ ("branches", PyDict [("only", PyList (map PyStr branches))]);
      ("tags", PyDict [("only", PyStr rc_tag_regex)]) ].

(** [if filter_branch: d["filters"] = gen_filter_branch_tree(filter_branch)] *)
Definition set_filters (filter_branch : option string)
  (d : list (string * pyval)) : list (string * pyval) :=
  match filter_branch with
  | Some b =>
      if Py.truthy filter_branch
      then Py.dict_set "filters" (gen_filter_branch_tree [b]) d
      else d
  | None => d
  end.

Definition build_download_job (filter_branch : option string) : list pyval :=
  let job := [("name", PyStr "download_third_parties_nix")] in
  let job := set_filters filter_branch job in
  [PyDict [("download_third_parties_nix", PyDict job)]].

Definition generate_base_workflow
  (base_workflow_name python_version : string)
  (filter_branch : option string) (os_type btype : string) : pyval :=
  let d := [ ("name", PyStr base_workflow_name);
             ("python_version", PyStr python_version) ] in
  let d :=
    if Py.str_in os_type ["linux"; "macos"]
    then Py.dict_set "requires" (PyList [PyStr "download_third_parties_nix"]) d
    else d in
  let d := set_filters filter_branch d in
  PyDict [("binary_" ++ os_type ++ "_" ++ btype, PyDict d)].

Definition generate_upload_workflow
  (base_workflow_name : string) (filter_branch : option string)
  (btype : string) : pyval :=
  let d := [ ("name", PyStr (base_workflow_name ++ "_upload"));
             ("context", PyStr "org-member");
             ("requires", PyList [PyStr base_workflow_name]) ] in
  let d := set_filters filter_branch d in
  PyDict [("binary_" ++ btype ++ "_upload", PyDict d)].

Definition generate_smoketest_workflow
  (pydistro base_workflow_name : string) (filter_branch : option string)
  (python_version os_type : string) : pyval :=
  let required_build_suffix := "_upload" in
  let required_build_name := base_workflow_name ++ required_build_suffix in
  let smoke_suffix := "smoke_test_" ++ pydistro in
  let d := [ ("name", PyStr (base_workflow_name ++ "_" ++ smoke_suffix));
             ("requires", PyList [PyStr required_build_name]);
             ("python_version", PyStr python_version) ] in
  let d := set_filters filter_branch d in
  PyDict [("smoke_test_" ++ os_type ++ "_" ++ pydistro, PyDict d)].

(** [build_workflow_pair]; in the source [prefix] and [upload] default to
    [''] and [False]. *)
Definition build_workflow_pair
  (btype os_type python_version : string) (filter_branch : option string)
  (prefix : string) (upload : bool) : list pyval :=
  let base_workflow_name :=
    prefix ++ "binary_" ++ os_type ++ "_" ++ btype ++ "_py" ++ python_version in
  let w :=
    [generate_base_workflow base_workflow_name python_version filter_branch
       os_type btype] in
  if upload then
    let is_py3_linux :=
      Py.str_in os_type ["linux"; "windows"]
      && negb (Py.startswith python_version "2.") in
    let w :=
      (w ++ [generate_upload_workflow base_workflow_name filter_branch btype])%list in
    if Py.opt_eqb filter_branch "nightly" && is_py3_linux then
      let pydistro := if btype =? "wheel" then "pip" else "conda" in
      (w ++ [generate_smoketest_workflow pydistro base_workflow_name
               filter_branch python_version os_type])%list
    else w
  else w.

(** The list [w] that [build_workflows] hands to [indent]. *)
Definition build_workflows_w
  (prefix : string) (upload : bool) (filter_branch : option string)
  : list pyval :=
  (build_download_job filter_branch ++
   flat_map (fun btype =>
     flat_map (fun os_type =>
       flat_map (fun python_version =>
         build_workflow_pair btype os_type python_version filter_branch
           prefix upload)
         PYTHON_VERSIONS)
       ["linux"; "macos"; "windows"])
     ["wheel"; "conda"])%list.

(** One iteration of the innermost loop of [unittest_workflows]: the
    descriptors it appends to [jobs]. *)
Definition unittest_iteration
  (os_type device_type : string) (i : nat) (python_version : string)
  : list pyval :=
  let job := [ ("name", PyStr ("unittest_" ++ os_type ++ "_" ++ device_type
                                 ++ "_py" ++ python_version));
               ("python_version", PyStr python_version) ] in
  let job :=
    if device_type =? "gpu"
    then Py.dict_set "filters" (gen_filter_branch_tree ["master"; "nightly"]) job
    else job in
  let job :=
    if negb (os_type =? "windows")
    then Py.dict_set "requires" (PyList [PyStr "download_third_parties_nix"]) job
    else job in
  let jobs := [PyDict [("unittest_" ++ os_type ++ "_" ++ device_type, PyDict job)]] in
  if (i =? 0)%nat && (os_type =? "linux") && (device_type =? "cpu") then
    (jobs ++
     [PyDict [("stylecheck",
               PyDict [ ("name", PyStr ("stylecheck_py" ++ python_version));
                        ("python_version", PyStr python_version) ])]])%list
  else jobs.

(** The loops of [unittest_workflows] over a list of python versions. *)
Definition unittest_jobs_for (versions : list string) : list pyval :=
  (build_download_job None ++
   flat_map (fun os_type =>
     flat_map (fun device_type =>
       flat_map (fun '(i, python_version) =>
         unittest_iteration os_type device_type i python_version)
         (Py.enumerate versions))
       ["cpu"; "gpu"])
     ["linux"; "windows"])%list.

(** The list [jobs] that [unittest_workflows] hands to [indent]. *)
Definition unittest_workflows_jobs : list pyval :=
  unittest_jobs_for PYTHON_VERSIONS.

Section Rendering.

(** [yaml.dump] belongs to PyYAML; the generator only relies on it being a
    function of the data it is given. *)
Variable yaml_dump : list pyval -> string.

Definition indent (indentation : Z) (data_list : list pyval) : string :=
  Py.join (String (ascii_of_nat 10) (Py.str_mul " "%char indentation))
    (Py.splitlines (yaml_dump data_list)).

(** In the source [indentation] defaults to [6]. *)
Definition build_workflows
  (prefix : string) (upload : bool) (filter_branch : option string)
  (indentation : Z) : string :=
  indent indentation (build_workflows_w prefix upload filter_branch).

Definition unittest_workflows (indentation : Z) : string :=
  indent indentation unittest_workflows_jobs.

End Rendering.

(** ** Chains and names

    [build_workflows] concatenates one chain per point of the matrix, in the
    order of its three loops. *)

Definition build_workflows_chains
  (prefix : string) (upload : bool) (filter_branch : option string)
  : list (list pyval) :=
  flat_map (fun btype =>
    flat_map (fun os_type =>
      map (fun python_version =>
        build_workflow_pair btype os_type python_version filter_branch
          prefix upload)
        PYTHON_VERSIONS)
      ["linux"; "macos"; "windows"])
    ["wheel"; "conda"].

(** [d] has a [requires] field, and it is the list of these names. *)
Definition requires_exactly (d : pyval) (names : list string) : Prop :=
  requires d = Some (PyList (map PyStr names)).

(** A chain is a base job alone, a base job and its upload, or a base
    job, its upload and a smoke test; each later stage requires exactly the
    name of the stage before it. *)
Definition chain_linked (chain : list pyval) : Prop :=
  match chain with
  | [b] => exists n, job_name b = Some n
  | [b; u] =>
      exists n, job_name b = Some n /\
        job_name u = Some (n ++ "_upload") /\ requires_exactly u [n]
  | [b; u; s] =>
      exists n, job_name b = Some n /\
        job_name u = Some (n ++ "_upload") /\ requires_exactly u [n] /\
        requires_exactly s [n ++ "_upload"]
  | _ => False
  end.

Definition key_startswith (p : string) (d : pyval) : bool :=
  match job_key d with
  | Some k => Py.startswith k p
  | None => false
  end.

Definition is_smoketest (d : pyval) : bool := key_startswith "smoke_test_" d.

Definition is_stylecheck (d : pyval) : bool :=
  match job_key d with
  | Some k => k =? "stylecheck"
  | None => false
  end.

Definition download_name : string := "download_third_parties_nix".

(** The test that guards the smoke test of [build_workflow_pair]. *)
Definition smoke_tested (os_type python_version : string)
  (filter_branch : option string) : bool :=
  Py.opt_eqb filter_branch "nightly"
  && (Py.str_in os_type ["linux"; "windows"]
      && negb (Py.startswith python_version "2.")).

Definition base_name_of (prefix os_type btype python_version : string) : string :=
  prefix ++ "binary_" ++ os_type ++ "_" ++ btype ++ "_py" ++ python_version.

Definition pydistro_of (btype : string) : string :=
  if btype =? "wheel" then "pip" else "conda".

(** [s.endswith(r)] *)
Fixpoint ends_with (s r : string) : bool :=
  (s =? r) ||
  match s with
  | EmptyString => false
  | String _ s' => ends_with s' r
  end.

(** The names of one chain without the prefix, by whether the branch filter
    is ['nightly'] and whether uploads are requested. *)
Definition pair_name_tails (btype os_type python_version : string)
  (nightly upload : bool) : list string :=
  let t := "binary_" ++ os_type ++ "_" ++ btype ++ "_py" ++ python_version in
  t ::
  (if upload then
     (t ++ "_upload") ::
     (if nightly
         && (Py.str_in os_type ["linux"; "windows"]
             && negb (Py.startswith python_version "2."))
      then [t ++ "_smoke_test_" ++ pydistro_of btype]
      else [])
   else []).

Definition all_name_tails (upload nightly : bool) : list string :=
  flat_map (fun btype =>
    flat_map (fun os_type =>
      flat_map (fun python_version =>
        pair_name_tails btype os_type python_version nightly upload)
        PYTHON_VERSIONS)
      ["linux"; "macos"; "windows"])
    ["wheel"; "conda"].

(** No string occurs twice in the list. *)
Fixpoint distinct (l : list string) : bool :=
  match l with
  | [] => true
  | x :: r => negb (Py.str_in x r) && distinct r
  end.

(** The number of style-check descriptors of a list. *)
Definition count_stylecheck (l : list pyval) : nat :=
  List.length (filter is_stylecheck l).

(** [d] has a [requires] list and [n] is one of its entries. *)
Definition lists_dependency (d : pyval) (n : string) : Prop :=
  exists l, requires d = Some (PyList l) /\ In (PyStr n) l.

(** ** Dependencies, keys and lines *)

(** Every dependency of [d] is its only one, and is the name of a descriptor
    of [earlier]. *)
Definition depends_on_earlier (earlier : list pyval) (d : pyval) : Prop :=
  forall n, lists_dependency d n ->
    requires d = Some (PyList [PyStr n]) /\
    exists d', In d' earlier /\ job_name d' = Some n.

(** Each descriptor of [l] depends only on descriptors before it, those of
    [earlier] included. *)
Fixpoint all_resolved (earlier l : list pyval) : Prop :=
  match l with
  | [] => True
  | d :: r =>
      depends_on_earlier earlier d /\ all_resolved (earlier ++ [d])%list r
  end.

Definition has_download (l : list pyval) : Prop :=
  exists d, In d l /\ job_name d = Some download_name.

(** The job types of one chain, by whether the branch filter is ['nightly']
    and whether uploads are requested. *)
Definition pair_keys (btype os_type python_version : string)
  (nightly upload : bool) : list string :=
  ("binary_" ++ os_type ++ "_" ++ btype) ::
  (if upload then
     ("binary_" ++ btype ++ "_upload") ::
     (if nightly
         && (Py.str_in os_type ["linux"; "windows"]
             && negb (Py.startswith python_version "2."))
      then ["smoke_test_" ++ os_type ++ "_" ++ pydistro_of btype]
      else [])
   else []).

Definition all_keys (upload nightly : bool) : list string :=
  flat_map (fun btype =>
    flat_map (fun os_type =>
      flat_map (fun python_version =>
        pair_keys btype os_type python_version nightly upload)
        PYTHON_VERSIONS)
      ["linux"; "macos"; "windows"])
    ["wheel"; "conda"].

(** The string has no line boundary of [str.splitlines]. *)
Fixpoint no_linebreak (s : string) : bool :=
  match s with
  | EmptyString => true
  | String c r => negb (Py.is_linebreak c) && no_linebreak r
  end.

(** The line that [splitlines_from] is reading. *)
Definition cur_line (cur : option string) : string :=
  match cur with
  | Some l => l
  | None => ""
  end.

(** Every line boundary of the string is a line feed. *)
Fixpoint only_line_feeds (s : string) : bool :=
  match s with
  | EmptyString => true
  | String c r => (negb (Py.is_linebreak c) || Py.is_lf c) && only_line_feeds r
  end.

(** The lines of a block whose lines after the first are indented. *)
Definition indented_lines (indentation : Z) (lines : list string)
  : list string :=
  match lines with
  | [] => []
  | l :: ls => l :: map (append (Py.str_mul " "%char indentation)) ls
  end.

(** * Properties *)

(** ** Dictionaries *)

Section Dict.

Lemma dict_get_set_same k v d : Py.dict_get k (Py.dict_set k v d) = Some v.
Proof.
  induction d as [|[k' v'] r IH]; simpl.
  - now rewrite String.eqb_refl.
  - destruct (k' =? k) eqn:E; simpl.
    + now rewrite String.eqb_refl.
    + now rewrite E.
Qed.

Lemma dict_get_set_other k k' v d :
  k <> k' -> Py.dict_get k' (Py.dict_set k v d) = Py.dict_get k' d.
Proof.
  intros Hne. induction d as [|[k0 v0] r IH]; simpl.
  - destruct (k =? k') eqn:E; [apply String.eqb_eq in E; contradiction | easy].
  - destruct (k0 =? k) eqn:E0; simpl.
    + apply String.eqb_eq in E0. subst k0.
      destruct (k =? k') eqn:E; [apply String.eqb_eq in E; contradiction | easy].
    + now rewrite IH.
Qed.

Lemma truthy_Some b : Py.truthy (Some b) = negb (b =? "").
Proof. reflexivity. Qed.

Lemma set_filters_other fb k d :
  k <> "filters" ->
  Py.dict_get k (set_filters fb d) = Py.dict_get k d.
Proof.
  intros Hne. unfold set_filters.
  destruct fb as [b|]; [|reflexivity].
  destruct (Py.truthy (Some b)); [|reflexivity].
  apply dict_get_set_other. congruence.
Qed.

Lemma set_filters_filters fb d :
  Py.dict_get "filters" d = None ->
  Py.dict_get "filters" (set_filters fb d) =
    match fb with
    | Some b => if Py.truthy fb then Some (gen_filter_branch_tree [b]) else None
    | None => None
    end.
Proof.
  intros Hd. unfold set_filters.
  destruct fb as [b|]; [|exact Hd].
  destruct (Py.truthy (Some b)); [|exact Hd].
  apply dict_get_set_same.
Qed.

End Dict.

(** ** Fields of the generated descriptors *)

Lemma requires_set_filters k fb d :
  requires (PyDict [(k, PyDict (set_filters fb d))]) = Py.dict_get "requires" d.
Proof. unfold requires, job_field; cbn [job_body]. now apply set_filters_other. Qed.

Lemma job_name_set_filters k fb d :
  job_name (PyDict [(k, PyDict (set_filters fb d))]) =
  match Py.dict_get "name" d with Some (PyStr s) => Some s | _ => None end.
Proof.
  unfold job_name, job_field; cbn [job_body].
  now rewrite set_filters_other by discriminate.
Qed.

Lemma has_filters_set_filters k fb d :
  Py.dict_get "filters" d = None ->
  has_filters (PyDict [(k, PyDict (set_filters fb d))]) = Py.truthy fb.
Proof.
  intros Hd. unfold has_filters, filters, job_field; cbn [job_body].
  rewrite set_filters_filters by exact Hd.
  destruct fb as [b|]; [|reflexivity].
  now destruct (Py.truthy (Some b)).
Qed.

Lemma job_name_base n pv fb os bt :
  job_name (generate_base_workflow n pv fb os bt) = Some n.
Proof.
  unfold generate_base_workflow. rewrite job_name_set_filters.
  now destruct (Py.str_in os ["linux"; "macos"]).
Qed.

Lemma job_name_upload n fb bt :
  job_name (generate_upload_workflow n fb bt) = Some (n ++ "_upload").
Proof. unfold generate_upload_workflow. now rewrite job_name_set_filters. Qed.

Lemma job_name_smoketest distro n fb pv os :
  job_name (generate_smoketest_workflow distro n fb pv os) =
  Some (n ++ "_smoke_test_" ++ distro).
Proof. unfold generate_smoketest_workflow. now rewrite job_name_set_filters. Qed.

Lemma requires_base n pv fb os bt :
  requires (generate_base_workflow n pv fb os bt) =
  if Py.str_in os ["linux"; "macos"]
  then Some (PyList [PyStr download_name]) else None.
Proof.
  unfold generate_base_workflow. rewrite requires_set_filters.
  now destruct (Py.str_in os ["linux"; "macos"]).
Qed.

Lemma requires_upload n fb bt :
  requires (generate_upload_workflow n fb bt) = Some (PyList [PyStr n]).
Proof. unfold generate_upload_workflow. now rewrite requires_set_filters. Qed.

Lemma requires_smoketest distro n fb pv os :
  requires (generate_smoketest_workflow distro n fb pv os) =
  Some (PyList [PyStr (n ++ "_upload")]).
Proof. unfold generate_smoketest_workflow. now rewrite requires_set_filters. Qed.

Lemma has_filters_base n pv fb os bt :
  has_filters (generate_base_workflow n pv fb os bt) = Py.truthy fb.
Proof.
  unfold generate_base_workflow. apply has_filters_set_filters.
  now destruct (Py.str_in os ["linux"; "macos"]).
Qed.

Lemma has_filters_upload n fb bt :
  has_filters (generate_upload_workflow n fb bt) = Py.truthy fb.
Proof. unfold generate_upload_workflow. now apply has_filters_set_filters. Qed.

Lemma has_filters_smoketest distro n fb pv os :
  has_filters (generate_smoketest_workflow distro n fb pv os) = Py.truthy fb.
Proof. unfold generate_smoketest_workflow. now apply has_filters_set_filters. Qed.

Lemma has_filters_download fb d :
  In d (build_download_job fb) -> has_filters d = Py.truthy fb.
Proof.
  unfold build_download_job. intros [<-|[]].
  now apply has_filters_set_filters.
Qed.

(** ** The shape of a chain *)

Lemma build_workflow_pair_shape btype os pv fb prefix upload :
  build_workflow_pair btype os pv fb prefix upload =
  let n := base_name_of prefix os btype pv in
  generate_base_workflow n pv fb os btype ::
  (if upload then
     generate_upload_workflow n fb btype ::
     (if smoke_tested os pv fb
      then [generate_smoketest_workflow (pydistro_of btype) n fb pv os]
      else [])
   else []).
Proof.
  unfold build_workflow_pair, smoke_tested, base_name_of, pydistro_of.
  destruct upload; [|reflexivity].
  now destruct (Py.opt_eqb fb "nightly" && _).
Qed.

Lemma concat_flat_map {A B : Type} (g : A -> list (list B)) (l : list A) :
  concat (flat_map g l) = flat_map (fun x => concat (g x)) l.
Proof.
  induction l as [|x l IH]; simpl; [reflexivity|].
  now rewrite concat_app, IH.
Qed.

Lemma in_build_workflows_chains chain prefix upload fb :
  In chain (build_workflows_chains prefix upload fb) <->
  exists btype os pv,
    In btype ["wheel"; "conda"] /\ In os ["linux"; "macos"; "windows"] /\
    In pv PYTHON_VERSIONS /\
    chain = build_workflow_pair btype os pv fb prefix upload.
Proof.
  unfold build_workflows_chains. rewrite in_flat_map. split.
  - intros (bt & Hbt & H). apply in_flat_map in H as (os & Hos & H).
    apply in_map_iff in H as (pv & <- & Hpv). now exists bt, os, pv.
  - intros (bt & os & pv & Hbt & Hos & Hpv & ->).
    exists bt. split; [exact Hbt|]. apply in_flat_map.
    exists os. split; [exact Hos|]. apply in_map_iff. now exists pv.
Qed.

Lemma build_workflows_w_chains prefix upload fb :
  build_workflows_w prefix upload fb =
  (build_download_job fb ++ concat (build_workflows_chains prefix upload fb))%list.
Proof.
  unfold build_workflows_w, build_workflows_chains. f_equal.
  rewrite concat_flat_map. apply flat_map_ext. intros btype.
  rewrite concat_flat_map. apply flat_map_ext. intros os_type.
  symmetry. apply flat_map_concat_map.
Qed.

Lemma chain_linked_pair btype os pv fb prefix upload :
  chain_linked (build_workflow_pair btype os pv fb prefix upload).
Proof.
  rewrite build_workflow_pair_shape. cbv zeta.
  set (n := base_name_of prefix os btype pv).
  destruct upload; [destruct (smoke_tested os pv fb)|]; cbn [chain_linked];
    exists n; unfold requires_exactly;
    rewrite ?job_name_base, ?job_name_upload, ?requires_upload,
      ?requires_smoketest; auto.
Qed.

(** ** Chaining *)

(** C1: every chain that [build_workflows] produces, for any prefix, branch
    filter and upload flag, is linked: an upload descriptor requires exactly
    the base descriptor's name, and a smoke-test descriptor requires exactly
    the upload descriptor's name, which is the base name followed by
    [_upload].  The generated list is the download job followed by these
    chains. *)
Theorem build_workflows_chaining :
  forall (prefix : string) (upload : bool) (filter_branch : option string),
    build_workflows_w prefix upload filter_branch =
      (build_download_job filter_branch ++
       concat (build_workflows_chains prefix upload filter_branch))%list /\
    forall chain,
      In chain (build_workflows_chains prefix upload filter_branch) ->
      chain_linked chain.
Proof.
  intros prefix upload fb. split.
  - apply build_workflows_w_chains.
  - intros chain Hin.
    apply in_build_workflows_chains in Hin as (bt & os & pv & _ & _ & _ & ->).
    apply chain_linked_pair.
Qed.

Lemma build_workflows_chaining_witness :
  chain_linked
    (build_workflow_pair "wheel" "linux" "3.7" (Some "nightly") "nightly_" true).
Proof.
  apply (proj2 (build_workflows_chaining "nightly_" true (Some "nightly"))).
  right; left; reflexivity.
Defined.

(** ** Smoke tests *)

Lemma is_smoketest_base n pv fb os bt :
  is_smoketest (generate_base_workflow n pv fb os bt) = false.
Proof. reflexivity. Qed.

Lemma is_smoketest_upload n fb bt :
  is_smoketest (generate_upload_workflow n fb bt) = false.
Proof. reflexivity. Qed.

Lemma append_assoc (a b c : string) : (a ++ b) ++ c = a ++ (b ++ c).
Proof. induction a as [|x a IH]; simpl; [reflexivity|now rewrite IH]. Qed.

Lemma prefix_append p s : String.prefix p (p ++ s) = true.
Proof.
  induction p as [|c p IH]; simpl.
  - now destruct s.
  - now destruct (ascii_dec c c).
Qed.

Lemma is_smoketest_smoketest distro n fb pv os :
  is_smoketest (generate_smoketest_workflow distro n fb pv os) = true.
Proof.
  unfold is_smoketest, key_startswith, Py.startswith.
  cbn [generate_smoketest_workflow job_key]. apply prefix_append.
Qed.

Lemma str_in_two x a b : Py.str_in x [a; b] = true <-> x = a \/ x = b.
Proof.
  unfold Py.str_in; cbn [existsb].
  rewrite !orb_true_iff, !String.eqb_eq. intuition discriminate.
Qed.

Lemma smoke_tested_iff os pv fb :
  smoke_tested os pv fb = true <->
  fb = Some "nightly" /\ (os = "linux" \/ os = "windows") /\
  Py.startswith pv "2." = false.
Proof.
  unfold smoke_tested.
  rewrite !andb_true_iff, negb_true_iff, str_in_two.
  destruct fb as [b|]; cbn [Py.opt_eqb].
  - rewrite String.eqb_eq. intuition congruence.
  - intuition discriminate.
Qed.

(** C2: [build_workflow_pair] emits a smoke-test descriptor exactly when
    [upload] is true, [filter_branch] is ['nightly'], the OS is linux or
    windows and the python version does not start with ['2.']; the channel of
    an emitted smoke test is pip for wheels and conda otherwise.  For the
    nightly linux wheel of python 3.7 with upload, the chain has three linked
    descriptors, each with the nightly branch filter. *)
Theorem smoke_test_emitted_iff :
  (forall (btype os_type python_version : string)
          (filter_branch : option string) (prefix : string) (upload : bool),
      let w := build_workflow_pair btype os_type python_version filter_branch
                 prefix upload in
      let channel := if btype =? "wheel" then "pip" else "conda" in
      ((exists d, In d w /\ is_smoketest d = true) <->
       (upload = true /\ filter_branch = Some "nightly" /\
        (os_type = "linux" \/ os_type = "windows") /\
        Py.startswith python_version "2." = false)) /\
      (forall d, In d w -> is_smoketest d = true ->
         job_key d = Some ("smoke_test_" ++ os_type ++ "_" ++ channel) /\
         job_name d =
           Some (base_name_of prefix os_type btype python_version
                   ++ "_smoke_test_" ++ channel))) /\
  (forall prefix : string,
      exists b u s,
        build_workflow_pair "wheel" "linux" "3.7" (Some "nightly") prefix true
          = [b; u; s] /\
        chain_linked [b; u; s] /\
        is_smoketest s = true /\
        job_name s = Some (prefix ++ "binary_linux_wheel_py3.7_smoke_test_pip") /\
        Forall (fun d => filters d = Some (gen_filter_branch_tree ["nightly"]))
          [b; u; s]).
Proof.
  split.
  - intros bt os pv fb prefix upload w channel. subst w.
    rewrite build_workflow_pair_shape. cbv zeta.
    fold (pydistro_of bt) in channel. subst channel.
    set (n := base_name_of prefix os bt pv).
    rewrite <- smoke_tested_iff.
    destruct upload; [destruct (smoke_tested os pv fb)|]; split.
    + split; [intros _; auto|intros _].
      eexists; split; [right; right; left; reflexivity|].
      apply is_smoketest_smoketest.
    + intros d [<-|[<-|[<-|[]]]] Hs; try discriminate Hs.
      split; [reflexivity|apply job_name_smoketest].
    + split; [|intros [_ H]; discriminate H].
      intros (d & [<-|[<-|[]]] & Hs); discriminate Hs.
    + intros d [<-|[<-|[]]] Hs; discriminate Hs.
    + split; [|intros [H _]; discriminate H].
      intros (d & [<-|[]] & Hs); discriminate Hs.
    + intros d [<-|[]] Hs; discriminate Hs.
  - intros prefix. do 3 eexists. split; [reflexivity|].
    split; [|split; [reflexivity|split]].
    + apply (chain_linked_pair "wheel" "linux" "3.7" (Some "nightly") prefix true).
    + rewrite job_name_smoketest, append_assoc. reflexivity.
    + repeat constructor.
Qed.

(** ** Base descriptors *)

(** C10: a base build descriptor for linux or macos requires exactly
    [download_third_parties_nix]; one for windows has no [requires] field. *)
Theorem generate_base_workflow_requires :
  forall (base_workflow_name python_version : string)
         (filter_branch : option string) (btype : string),
    requires_exactly
      (generate_base_workflow base_workflow_name python_version filter_branch
         "linux" btype) ["download_third_parties_nix"] /\
    requires_exactly
      (generate_base_workflow base_workflow_name python_version filter_branch
         "macos" btype) ["download_third_parties_nix"] /\
    requires
      (generate_base_workflow base_workflow_name python_version filter_branch
         "windows" btype) = None.
Proof.
  intros n pv fb bt. unfold requires_exactly.
  rewrite !requires_base. now repeat split.
Qed.

(** ** Branch filters *)

(** C7: the filter object built from a list of branch names holds that list
    under [branches/only] and, under [tags/only], the release-candidate
    pattern, which is the same for every list; the object has no other
    entry. *)
Theorem gen_filter_branch_tree_contents :
  forall branches : list string,
    branches <> [] ->
    gen_filter_branch_tree branches =
      PyDict
        [ ("branches", PyDict [("only", PyList (map PyStr branches))]);
          ("tags", PyDict [("only", PyStr "/v[0-9]+(\.[0-9]+)*-rc[0-9]+/")]) ] /\
    forall others : list string,
      dict_field "tags" (gen_filter_branch_tree others) =
      dict_field "tags" (gen_filter_branch_tree branches).
Proof.
  intros branches _. split; reflexivity.
Qed.

Lemma gen_filter_branch_tree_contents_witness :
  gen_filter_branch_tree ["master"; "nightly"] =
    PyDict
      [ ("branches", PyDict [("only", PyList [PyStr "master"; PyStr "nightly"])]);
        ("tags", PyDict [("only", PyStr "/v[0-9]+(\.[0-9]+)*-rc[0-9]+/")]) ] /\
  forall others : list string,
    dict_field "tags" (gen_filter_branch_tree others) =
    dict_field "tags" (gen_filter_branch_tree ["master"; "nightly"]).
Proof.
  apply (gen_filter_branch_tree_contents ["master"; "nightly"]). discriminate.
Defined.

(** ** Presence of the branch filter *)

Lemma in_build_workflows_w d prefix upload fb :
  In d (build_workflows_w prefix upload fb) <->
  In d (build_download_job fb) \/
  exists btype os pv,
    In btype ["wheel"; "conda"] /\ In os ["linux"; "macos"; "windows"] /\
    In pv PYTHON_VERSIONS /\
    In d (build_workflow_pair btype os pv fb prefix upload).
Proof.
  rewrite build_workflows_w_chains, in_app_iff, in_concat.
  split; (intros [H|H]; [now left|right]).
  - destruct H as (chain & Hc & Hd).
    apply in_build_workflows_chains in Hc as (bt & os & pv & ? & ? & ? & ->).
    now exists bt, os, pv.
  - destruct H as (bt & os & pv & ? & ? & ? & Hd).
    eexists. split; [|exact Hd].
    apply in_build_workflows_chains. now exists bt, os, pv.
Qed.

Lemma has_filters_pair btype os pv fb prefix upload d :
  In d (build_workflow_pair btype os pv fb prefix upload) ->
  has_filters d = Py.truthy fb.
Proof.
  rewrite build_workflow_pair_shape. cbv zeta.
  destruct upload; [destruct (smoke_tested os pv fb)|];
    cbn [In]; intros H; decompose [or] H; subst;
    auto using has_filters_base, has_filters_upload, has_filters_smoketest;
    contradiction.
Qed.

Lemma has_filters_unittest_iteration os dev i pv d :
  In d (unittest_iteration os dev i pv) ->
  has_filters d = (dev =? "gpu").
Proof.
  unfold unittest_iteration.
  destruct (dev =? "gpu") eqn:Egpu.
  - apply String.eqb_eq in Egpu. subst dev.
    rewrite !andb_false_r.
    destruct (os =? "windows"); intros [<-|[]]; reflexivity.
  - destruct ((i =? 0)%nat && (os =? "linux") && (dev =? "cpu"));
      destruct (os =? "windows"); cbn [In app negb];
      intros H; decompose [or] H; subst; try reflexivity; contradiction.
Qed.

(** C3, as the code has it: a descriptor of [build_workflows] carries
    [filters] exactly when the caller's [filter_branch] is a non-empty string;
    [unittest_workflows] takes no branch filter, and there a descriptor
    carries [filters] exactly when its device type is gpu. *)
Theorem filters_present_iff :
  (forall (prefix : string) (upload : bool) (filter_branch : option string) d,
      In d (build_workflows_w prefix upload filter_branch) ->
      has_filters d = Py.truthy filter_branch) /\
  (forall (os_type device_type : string) (i : nat) (python_version : string) d,
      In d (unittest_iteration os_type device_type i python_version) ->
      has_filters d = (device_type =? "gpu")) /\
  (forall d,
      In d unittest_workflows_jobs ->
      (has_filters d = true <->
       job_key d = Some "unittest_linux_gpu" \/
       job_key d = Some "unittest_windows_gpu")).
Proof.
  split; [|split].
  - intros prefix upload fb d Hin.
    apply in_build_workflows_w in Hin as [Hin|(bt & os & pv & _ & _ & _ & Hin)].
    + now apply has_filters_download.
    + now apply has_filters_pair in Hin.
  - apply has_filters_unittest_iteration.
  - intros d Hin. vm_compute in Hin.
    decompose [or] Hin; try contradiction; subst d; vm_compute;
      intuition discriminate.
Qed.

(** C3 as stated fails: [unittest_workflows] is given no branch filter, and
    its gpu jobs carry one. *)
Lemma unittest_gpu_jobs_are_filtered :
  exists d,
    In d unittest_workflows_jobs /\
    job_name d = Some "unittest_linux_gpu_py3.6" /\
    filters d = Some (gen_filter_branch_tree ["master"; "nightly"]) /\
    has_filters d = true.
Proof.
  eexists. split; [do 5 right; left; reflexivity|].
  repeat split.
Qed.

(** ** Dimensions outside the matrix *)

(** C4 as stated fails: an OS that is none of linux, macos and windows is not
    rejected, it gets a base descriptor of the windows shape; a device that
    is neither cpu nor gpu gets a descriptor of the cpu shape. *)
Lemma unrecognized_dimensions_are_not_rejected :
  Py.str_in "freebsd" ["linux"; "macos"; "windows"] = false /\
  build_workflow_pair "wheel" "freebsd" "3.7" None "" false =
    [PyDict [("binary_freebsd_wheel",
              PyDict [ ("name", PyStr "binary_freebsd_wheel_py3.7");
                       ("python_version", PyStr "3.7") ])]] /\
  Py.str_in "tpu" ["cpu"; "gpu"] = false /\
  unittest_iteration "linux" "tpu" 0 "3.6" =
    [PyDict [("unittest_linux_tpu",
              PyDict [ ("name", PyStr "unittest_linux_tpu_py3.6");
                       ("python_version", PyStr "3.6");
                       ("requires", PyList [PyStr "download_third_parties_nix"]) ])]].
Proof. repeat split. Qed.

(** C4, as the code has it: no combination of dimensions makes the
    generator fail.  For every package type, OS and python version
    [build_workflow_pair] returns a chain that starts with a base descriptor
    of the prescribed name; an OS other than linux and macos gets no
    [requires], an OS other than linux and windows gets no smoke test, and in
    [unittest_workflows] a device other than gpu gets no filter. *)
Theorem unrecognized_dimensions_fall_through :
  (forall (btype os_type python_version : string)
          (filter_branch : option string) (prefix : string) (upload : bool),
      exists base later,
        build_workflow_pair btype os_type python_version filter_branch
          prefix upload = base :: later /\
        job_name base =
          Some (base_name_of prefix os_type btype python_version) /\
        (Py.str_in os_type ["linux"; "macos"] = false -> requires base = None) /\
        (Py.str_in os_type ["linux"; "windows"] = false ->
         forall d, In d later -> is_smoketest d = false)) /\
  (forall (os_type device_type : string) (i : nat) (python_version : string),
      device_type <> "gpu" ->
      unittest_iteration os_type device_type i python_version <> [] /\
      forall d,
        In d (unittest_iteration os_type device_type i python_version) ->
        has_filters d = false).
Proof.
  split.
  - intros bt os pv fb prefix upload.
    rewrite build_workflow_pair_shape. cbv zeta.
    do 2 eexists. split; [reflexivity|]. split; [apply job_name_base|]. split.
    + intros Hos. now rewrite requires_base, Hos.
    + intros Hos d. unfold smoke_tested. rewrite Hos, andb_false_l, andb_false_r.
      destruct upload; [intros [<-|[]]; reflexivity|intros []].
  - intros os dev i pv Hdev. split.
    + unfold unittest_iteration.
      now destruct ((i =? 0)%nat && (os =? "linux") && (dev =? "cpu")).
    + intros d Hin. apply has_filters_unittest_iteration in Hin.
      rewrite Hin. now apply String.eqb_neq.
Qed.

(** ** Names *)

Section Names.

Lemma append_inj_l (p a b : string) : p ++ a = p ++ b -> a = b.
Proof.
  induction p as [|c p IH]; simpl; [easy|].
  intros H. injection H as H. auto.
Qed.

Lemma ends_with_append (p r : string) : ends_with (p ++ r) r = true.
Proof.
  induction p as [|c p IH]; cbn [append].
  - destruct r; cbn [ends_with]; now rewrite String.eqb_refl.
  - cbn [ends_with]. rewrite IH. apply orb_true_r.
Qed.

Lemma str_in_In x l : Py.str_in x l = true <-> In x l.
Proof.
  unfold Py.str_in. rewrite existsb_exists. split.
  - intros (y & Hy & E). apply String.eqb_eq in E. now subst.
  - intros H. exists x. split; [exact H|apply String.eqb_refl].
Qed.

Lemma distinct_NoDup l : distinct l = true -> NoDup l.
Proof.
  induction l as [|x l IH]; simpl; [constructor|].
  rewrite andb_true_iff, negb_true_iff. intros [Hx Hl].
  constructor; [|auto].
  intros Hin. apply str_in_In in Hin. congruence.
Qed.

Lemma map_flat_map {A B C : Type} (f : B -> C) (g : A -> list B) l :
  map f (flat_map g l) = flat_map (fun x => map f (g x)) l.
Proof.
  induction l as [|x l IH]; simpl; [reflexivity|].
  now rewrite map_app, IH.
Qed.

Lemma NoDup_map_inj {A B : Type} (f : A -> B) (l : list A) :
  (forall a b, f a = f b -> a = b) -> NoDup l -> NoDup (map f l).
Proof.
  intros Hf. induction 1 as [|x l Hx Hl IH]; cbn [map]; constructor; auto.
  rewrite in_map_iff. intros (y & E & Hy). apply Hf in E. now subst.
Qed.

Lemma names_pair btype os pv fb prefix upload :
  map job_name (build_workflow_pair btype os pv fb prefix upload) =
  map (fun r => Some (prefix ++ r))
    (pair_name_tails btype os pv (Py.opt_eqb fb "nightly") upload).
Proof.
  rewrite build_workflow_pair_shape. cbv zeta.
  unfold pair_name_tails, smoke_tested, base_name_of.
  destruct upload; [destruct (Py.opt_eqb fb "nightly" && _)|];
    cbn [map]; rewrite ?job_name_base, ?job_name_upload, ?job_name_smoketest,
      ?append_assoc; reflexivity.
Qed.

Lemma names_build_workflows_w prefix upload fb :
  map job_name (build_workflows_w prefix upload fb) =
  Some download_name ::
  map (fun r => Some (prefix ++ r))
    (all_name_tails upload (Py.opt_eqb fb "nightly")).
Proof.
  unfold build_workflows_w, all_name_tails. rewrite map_app.
  unfold build_download_job at 1. cbn [map app].
  rewrite job_name_set_filters. cbn [Py.dict_get String.eqb Ascii.eqb Bool.eqb].
  f_equal.
  rewrite !map_flat_map. apply flat_map_ext. intros btype.
  rewrite !map_flat_map. apply flat_map_ext. intros os.
  rewrite !map_flat_map. apply flat_map_ext. intros pv.
  apply names_pair.
Qed.

Lemma all_name_tails_distinct upload nightly :
  distinct (all_name_tails upload nightly) = true.
Proof. destruct upload, nightly; vm_compute; reflexivity. Qed.

Lemma all_name_tails_not_download upload nightly :
  forallb (fun r => negb (ends_with download_name r))
    (all_name_tails upload nightly) = true.
Proof. destruct upload, nightly; vm_compute; reflexivity. Qed.

Lemma prefixed_tail_not_download prefix upload nightly r :
  In r (all_name_tails upload nightly) -> prefix ++ r <> download_name.
Proof.
  intros Hin E.
  pose proof (all_name_tails_not_download upload nightly) as H.
  rewrite forallb_forall in H. specialize (H r Hin).
  rewrite <- E, ends_with_append in H. discriminate.
Qed.

Lemma names_build_workflows_w_NoDup prefix upload fb :
  NoDup (map job_name (build_workflows_w prefix upload fb)).
Proof.
  rewrite names_build_workflows_w. constructor.
  - rewrite in_map_iff. intros (r & E & Hin). injection E as E.
    exact (prefixed_tail_not_download prefix _ _ r Hin E).
  - apply NoDup_map_inj.
    + intros a b E. injection E as E. now apply append_inj_l in E.
    + apply distinct_NoDup, all_name_tails_distinct.
Qed.

End Names.

(** C6: in the list of [build_workflows], for any prefix, upload flag and
    branch filter, and in the list of [unittest_workflows], every descriptor
    has a name and no two descriptors share one. *)
Theorem names_unique :
  (forall (prefix : string) (upload : bool) (filter_branch : option string),
      NoDup (map job_name (build_workflows_w prefix upload filter_branch)) /\
      Forall (fun d => job_name d <> None)
        (build_workflows_w prefix upload filter_branch)) /\
  NoDup (map job_name unittest_workflows_jobs) /\
  Forall (fun d => job_name d <> None) unittest_workflows_jobs.
Proof.
  split; [|split].
  - intros prefix upload fb. split.
    + apply names_build_workflows_w_NoDup.
    + apply Forall_forall. intros d Hin Hnone.
      apply (in_map job_name) in Hin.
      rewrite Hnone, names_build_workflows_w in Hin.
      destruct Hin as [E|Hin]; [discriminate E|].
      apply in_map_iff in Hin as (r & E & _). discriminate E.
  - assert (E : map job_name unittest_workflows_jobs =
                map Some (map (fun o => match o with Some n => n | None => "" end)
                            (map job_name unittest_workflows_jobs)))
      by reflexivity.
    rewrite E. apply NoDup_map_inj.
    + intros a b H. now injection H.
    + apply distinct_NoDup. vm_compute. reflexivity.
  - vm_compute. repeat constructor; discriminate.
Qed.

(** ** The download job *)

Lemma not_download_name prefix r :
  ends_with download_name r = false -> prefix ++ r <> download_name.
Proof.
  intros H E. rewrite <- E, ends_with_append in H. discriminate.
Qed.

Lemma job_key_pair_not_download btype os pv fb prefix upload d :
  In d (build_workflow_pair btype os pv fb prefix upload) ->
  job_key d <> Some download_name.
Proof.
  rewrite build_workflow_pair_shape. cbv zeta.
  destruct upload; [destruct (smoke_tested os pv fb)|];
    cbn [In]; intros H; decompose [or] H; subst; try contradiction;
    cbn; discriminate.
Qed.

Lemma requirers_of_download_pair btype os pv fb prefix upload d :
  In btype ["wheel"; "conda"] -> In os ["linux"; "macos"; "windows"] ->
  In pv PYTHON_VERSIONS ->
  In d (build_workflow_pair btype os pv fb prefix upload) ->
  lists_dependency d download_name ->
  (os = "linux" \/ os = "macos") /\
  job_key d = Some ("binary_" ++ os ++ "_" ++ btype).
Proof.
  intros Hbt Hos Hpv. rewrite build_workflow_pair_shape. cbv zeta.
  intros Hd (l & Hreq & Hl).
  assert (Hbase : base_name_of prefix os btype pv <> download_name).
  { unfold base_name_of. apply not_download_name.
    cbn in Hbt, Hos, Hpv.
    decompose [or] Hbt; decompose [or] Hos; decompose [or] Hpv;
      subst; try contradiction; reflexivity. }
  assert (Hup : base_name_of prefix os btype pv ++ "_upload" <> download_name).
  { unfold base_name_of. rewrite append_assoc. apply not_download_name.
    cbn in Hbt, Hos, Hpv.
    decompose [or] Hbt; decompose [or] Hos; decompose [or] Hpv;
      subst; try contradiction; reflexivity. }
  assert (Hcases :
            d = generate_base_workflow (base_name_of prefix os btype pv) pv fb
                  os btype \/
            d = generate_upload_workflow (base_name_of prefix os btype pv) fb
                  btype \/
            d = generate_smoketest_workflow (pydistro_of btype)
                  (base_name_of prefix os btype pv) fb pv os).
  { destruct upload; [destruct (smoke_tested os pv fb)|];
      cbn [In] in Hd; decompose [or] Hd; subst; auto; contradiction. }
  destruct Hcases as [->|[->| ->]].
  - rewrite requires_base in Hreq. split; [|reflexivity].
    destruct (Py.str_in os ["linux"; "macos"]) eqn:E; [|discriminate Hreq].
    now apply str_in_two.
  - rewrite requires_upload in Hreq. injection Hreq as <-.
    destruct Hl as [E|[]]. injection E as E. contradiction.
  - rewrite requires_smoketest in Hreq. injection Hreq as <-.
    destruct Hl as [E|[]]. injection E as E. contradiction.
Qed.

Lemma names_chains prefix upload fb :
  map job_name (concat (build_workflows_chains prefix upload fb)) =
  map (fun r => Some (prefix ++ r))
    (all_name_tails upload (Py.opt_eqb fb "nightly")).
Proof.
  pose proof (names_build_workflows_w prefix upload fb) as H.
  rewrite build_workflows_w_chains in H.
  exact (f_equal (@tl _) H).
Qed.

(** C5: for any prefix, upload flag and branch filter, the list of
    [build_workflows] starts with the download descriptor
    [download_third_parties_nix], no later descriptor has its key or its
    name, a later linux job lists it as a dependency, and the descriptors that
    list it are base jobs for linux or macos. *)
Theorem download_job_once :
  forall (prefix : string) (upload : bool) (filter_branch : option string),
    exists dl rest,
      build_workflows_w prefix upload filter_branch = dl :: rest /\
      build_download_job filter_branch = [dl] /\
      job_key dl = Some "download_third_parties_nix" /\
      job_name dl = Some "download_third_parties_nix" /\
      (forall d, In d rest ->
         job_key d <> Some "download_third_parties_nix" /\
         job_name d <> Some "download_third_parties_nix") /\
      (exists d, In d rest /\ job_key d = Some "binary_linux_wheel" /\
                 lists_dependency d "download_third_parties_nix") /\
      (forall d, In d rest -> lists_dependency d "download_third_parties_nix" ->
         exists os_type btype,
           (os_type = "linux" \/ os_type = "macos") /\
           job_key d = Some ("binary_" ++ os_type ++ "_" ++ btype)).
Proof.
  intros prefix upload fb.
  exists (PyDict [(download_name,
                   PyDict (set_filters fb [("name", PyStr download_name)]))]).
  exists (concat (build_workflows_chains prefix upload fb)).
  split; [apply build_workflows_w_chains|]. split; [reflexivity|].
  split; [reflexivity|]. split; [now rewrite job_name_set_filters|].
  split; [|split].
  - intros d Hd. split.
    + apply in_concat in Hd as (chain & Hc & Hd).
      apply in_build_workflows_chains in Hc as (bt & os & pv & _ & _ & _ & ->).
      now apply job_key_pair_not_download in Hd.
    + intros E. apply (in_map job_name) in Hd.
      rewrite names_chains, E in Hd.
      apply in_map_iff in Hd as (r & Er & Hr). injection Er as Er.
      exact (prefixed_tail_not_download prefix _ _ r Hr Er).
  - exists (generate_base_workflow (base_name_of prefix "linux" "wheel" "3.6")
              "3.6" fb "linux" "wheel").
    split; [|split].
    + apply in_concat.
      exists (build_workflow_pair "wheel" "linux" "3.6" fb prefix upload).
      split; [left; reflexivity|].
      rewrite build_workflow_pair_shape. left. reflexivity.
    + reflexivity.
    + exists [PyStr download_name]. split; [|left; reflexivity].
      now rewrite requires_base.
  - intros d Hd Hdep.
    apply in_concat in Hd as (chain & Hc & Hd).
    apply in_build_workflows_chains in Hc as (bt & os & pv & Hbt & Hos & Hpv & ->).
    exists os, bt.
    exact (requirers_of_download_pair bt os pv fb prefix upload d
             Hbt Hos Hpv Hd Hdep).
Qed.

(** ** The style check *)

Lemma count_stylecheck_app l1 l2 :
  count_stylecheck (l1 ++ l2)%list = count_stylecheck l1 + count_stylecheck l2.
Proof. unfold count_stylecheck. now rewrite filter_app, length_app. Qed.

Lemma count_stylecheck_flat_map_zero {A : Type} (f : A -> list pyval) l :
  (forall x, In x l -> count_stylecheck (f x) = 0) ->
  count_stylecheck (flat_map f l) = 0.
Proof.
  induction l as [|x l IH]; intros H; cbn [flat_map]; [reflexivity|].
  rewrite count_stylecheck_app, (H x (or_introl eq_refl)), IH; [reflexivity|].
  intros y Hy. apply H. now right.
Qed.

Lemma count_stylecheck_iteration os dev i pv :
  count_stylecheck (unittest_iteration os dev i pv) =
  if (i =? 0)%nat && (os =? "linux") && (dev =? "cpu") then 1 else 0.
Proof.
  unfold unittest_iteration.
  destruct ((i =? 0)%nat && (os =? "linux") && (dev =? "cpu"));
    destruct (dev =? "gpu"); destruct (os =? "windows"); reflexivity.
Qed.

Lemma enumerate_cons {A : Type} (x : A) l :
  Py.enumerate (x :: l) = (0, x) :: combine (seq 1 (List.length l)) l.
Proof. reflexivity. Qed.

Lemma count_stylecheck_later os dev (l : list string) :
  count_stylecheck
    (flat_map (fun '(i, pv) => unittest_iteration os dev i pv)
       (combine (seq 1 (List.length l)) l)) = 0.
Proof.
  apply count_stylecheck_flat_map_zero. intros [i pv] Hin.
  rewrite count_stylecheck_iteration.
  apply in_combine_l, in_seq in Hin.
  destruct i as [|i]; [lia|reflexivity].
Qed.

Lemma count_stylecheck_loop os dev (versions : list string) :
  count_stylecheck
    (flat_map (fun '(i, pv) => unittest_iteration os dev i pv)
       (Py.enumerate versions)) =
  match versions with
  | [] => 0
  | _ :: _ => if (os =? "linux") && (dev =? "cpu") then 1 else 0
  end.
Proof.
  destruct versions as [|v vs]; [reflexivity|].
  rewrite enumerate_cons. cbn [flat_map].
  rewrite count_stylecheck_app, count_stylecheck_later,
    count_stylecheck_iteration, Nat.add_0_r.
  reflexivity.
Qed.

Lemma count_stylecheck_jobs_for versions :
  count_stylecheck (unittest_jobs_for versions) =
  match versions with
  | [] => 0
  | _ :: _ => 1
  end.
Proof.
  unfold unittest_jobs_for. cbn [flat_map].
  rewrite !count_stylecheck_app, !count_stylecheck_loop.
  now destruct versions.
Qed.

(** C9: [unittest_workflows] emits exactly one style-check descriptor.  It is
    emitted in the iteration of linux, cpu and the first python version, just
    after that iteration's test job; every other iteration emits none, also
    for any other list of python versions. *)
Theorem stylecheck_once :
  count_stylecheck unittest_workflows_jobs = 1 /\
  (exists dl rest,
      unittest_workflows_jobs =
        (dl :: unittest_iteration "linux" "cpu" 0 "3.6" ++ rest)%list /\
      build_download_job None = [dl] /\
      (exists job sc,
          unittest_iteration "linux" "cpu" 0 "3.6" = [job; sc] /\
          job_name job = Some "unittest_linux_cpu_py3.6" /\
          is_stylecheck sc = true /\
          job_name sc = Some "stylecheck_py3.6") /\
      count_stylecheck rest = 0) /\
  (forall (os_type device_type : string) (i : nat) (python_version : string),
      count_stylecheck
        (unittest_iteration os_type device_type i python_version) =
      if (i =? 0)%nat && (os_type =? "linux") && (device_type =? "cpu")
      then 1 else 0) /\
  (forall versions : list string,
      count_stylecheck (unittest_jobs_for versions) =
      match versions with
      | [] => 0
      | _ :: _ => 1
      end).
Proof.
  split; [apply (count_stylecheck_jobs_for PYTHON_VERSIONS)|].
  split; [|split;
            [apply count_stylecheck_iteration|apply count_stylecheck_jobs_for]].
  do 2 eexists. split; [reflexivity|]. split; [reflexivity|]. split.
  - do 2 eexists. repeat split.
  - reflexivity.
Qed.

(** ** Determinism *)

Lemma length_build_workflows_w prefix upload fb :
  List.length (build_workflows_w prefix upload fb) =
  19 + (if upload
        then 18 + (if Py.opt_eqb fb "nightly" then 12 else 0)
        else 0).
Proof.
  rewrite <- (length_map job_name), names_build_workflows_w.
  cbn [List.length]. rewrite length_map.
  destruct upload, (Py.opt_eqb fb "nightly"); reflexivity.
Qed.

(** C8: the generator is a function of its arguments: two calls of
    [build_workflows] with the same prefix, upload flag, branch filter and
    indentation give the same text, and so do two calls of
    [unittest_workflows] with the same indentation, whatever function
    [yaml.dump] is.  Every call returns, with a list of the length that the
    matrix prescribes. *)
Theorem generation_deterministic :
  forall (yaml_dump : list pyval -> string)
         (prefix1 prefix2 : string) (upload1 upload2 : bool)
         (filter_branch1 filter_branch2 : option string)
         (indentation1 indentation2 : Z),
    prefix1 = prefix2 -> upload1 = upload2 ->
    filter_branch1 = filter_branch2 -> indentation1 = indentation2 ->
    build_workflows yaml_dump prefix1 upload1 filter_branch1 indentation1 =
    build_workflows yaml_dump prefix2 upload2 filter_branch2 indentation2 /\
    unittest_workflows yaml_dump indentation1 =
    unittest_workflows yaml_dump indentation2 /\
    List.length (build_workflows_w prefix1 upload1 filter_branch1) =
      19 + (if upload1
            then 18 + (if Py.opt_eqb filter_branch1 "nightly" then 12 else 0)
            else 0) /\
    List.length unittest_workflows_jobs = 14.
Proof.
  intros yaml_dump p1 p2 u1 u2 f1 f2 i1 i2 -> -> -> ->.
  repeat split. apply length_build_workflows_w.
Qed.

Lemma generation_deterministic_witness :
  build_workflows (fun _ => "") "nightly_" true (Some "nightly") 6 =
  build_workflows (fun _ => "") "nightly_" true (Some "nightly") 6 /\
  unittest_workflows (fun _ => "") 6 = unittest_workflows (fun _ => "") 6 /\
  List.length (build_workflows_w "nightly_" true (Some "nightly")) = 49 /\
  List.length unittest_workflows_jobs = 14.
Proof.
  exact (generation_deterministic (fun _ => "") "nightly_" "nightly_" true true
           (Some "nightly") (Some "nightly") 6 6
           eq_refl eq_refl eq_refl eq_refl).
Defined.


(** * Further properties *)

(** ** Dependencies resolve *)

Section Resolved.

Lemma depends_on_earlier_incl e e' d :
  incl e e' -> depends_on_earlier e d -> depends_on_earlier e' d.
Proof.
  intros Hincl H n Hn. destruct (H n Hn) as (Hreq & d' & Hd' & Hname).
  split; [exact Hreq|]. exists d'. split; [apply Hincl, Hd'|exact Hname].
Qed.

Lemma all_resolved_app e l1 l2 :
  all_resolved e (l1 ++ l2)%list <->
  all_resolved e l1 /\ all_resolved (e ++ l1)%list l2.
Proof.
  revert e. induction l1 as [|d l1 IH]; intros e; cbn [all_resolved app].
  - rewrite app_nil_r. tauto.
  - rewrite IH, <- app_assoc. cbn [app]. tauto.
Qed.

Lemma all_resolved_split e l before d after :
  all_resolved e l -> l = (before ++ d :: after)%list ->
  depends_on_earlier (e ++ before)%list d.
Proof.
  intros H ->. apply all_resolved_app in H as [_ H]. exact (proj1 H).
Qed.

Lemma has_download_app e l : has_download e -> has_download (e ++ l)%list.
Proof.
  intros (d & Hd & Hn). exists d. split; [apply in_or_app; now left|exact Hn].
Qed.

Lemma all_resolved_flat_map {A : Type} (f : A -> list pyval) (l : list A) e :
  (forall x e', has_download e' -> all_resolved e' (f x)) ->
  has_download e -> all_resolved e (flat_map f l).
Proof.
  intros Hf. revert e. induction l as [|x l IH]; intros e He; cbn [flat_map].
  - exact I.
  - apply all_resolved_app. split; [now apply Hf|].
    apply IH. now apply has_download_app.
Qed.

Lemma lists_dependency_singleton d m n :
  requires d = Some (PyList [PyStr m]) -> lists_dependency d n -> n = m.
Proof.
  intros Hreq (l & Hl & Hin). rewrite Hreq in Hl. injection Hl as <-.
  destruct Hin as [E|[]]. now injection E.
Qed.

Lemma lists_dependency_none d n :
  requires d = None -> ~ lists_dependency d n.
Proof. intros Hreq (l & Hl & _). rewrite Hreq in Hl. discriminate Hl. Qed.

Lemma depends_on_earlier_one e d m d' :
  requires d = Some (PyList [PyStr m]) ->
  In d' e -> job_name d' = Some m -> depends_on_earlier e d.
Proof.
  intros Hreq Hin Hname n Hn.
  apply (lists_dependency_singleton d m n Hreq) in Hn. subst n.
  split; [exact Hreq|]. now exists d'.
Qed.

Lemma depends_on_earlier_none e d :
  requires d = None -> depends_on_earlier e d.
Proof. intros Hreq n Hn. now apply lists_dependency_none in Hn. Qed.

Lemma all_resolved_pair btype os pv fb prefix upload e :
  has_download e ->
  all_resolved e (build_workflow_pair btype os pv fb prefix upload).
Proof.
  intros (dl & Hdl & Hname).
  rewrite build_workflow_pair_shape. cbv zeta.
  set (n := base_name_of prefix os btype pv).
  assert (Hbase : depends_on_earlier e
                    (generate_base_workflow n pv fb os btype)).
  { pose proof (requires_base n pv fb os btype) as Hreq.
    destruct (Py.str_in os ["linux"; "macos"]).
    - exact (depends_on_earlier_one _ _ _ dl Hreq Hdl Hname).
    - now apply depends_on_earlier_none. }
  assert (Hup : forall e',
             depends_on_earlier
               (e' ++ [generate_base_workflow n pv fb os btype])%list
               (generate_upload_workflow n fb btype)).
  { intros e'. eapply depends_on_earlier_one.
    - apply requires_upload.
    - apply in_or_app. right. left. reflexivity.
    - apply job_name_base. }
  assert (Hsm : forall e',
             depends_on_earlier
               (e' ++ [generate_upload_workflow n fb btype])%list
               (generate_smoketest_workflow (pydistro_of btype) n fb pv os)).
  { intros e'. eapply depends_on_earlier_one.
    - apply requires_smoketest.
    - apply in_or_app. right. left. reflexivity.
    - apply job_name_upload. }
  destruct upload; [destruct (smoke_tested os pv fb)|];
    cbn [all_resolved]; auto.
Qed.

Lemma requires_unittest_iteration os dev i pv d :
  In d (unittest_iteration os dev i pv) ->
  requires d =
    if is_stylecheck d || (os =? "windows") then None
    else Some (PyList [PyStr download_name]).
Proof.
  unfold unittest_iteration.
  destruct ((i =? 0)%nat && (os =? "linux") && (dev =? "cpu"));
    destruct (dev =? "gpu"); destruct (os =? "windows");
    cbn [In app negb]; intros H; decompose [or] H; subst; try contradiction;
    reflexivity.
Qed.

Lemma all_resolved_unittest_iteration os dev i pv e :
  has_download e -> all_resolved e (unittest_iteration os dev i pv).
Proof.
  intros (dl & Hdl & Hname).
  assert (H : forall e' d,
             In dl e' -> In d (unittest_iteration os dev i pv) ->
             depends_on_earlier e' d).
  { intros e' d Hin Hd. apply requires_unittest_iteration in Hd.
    destruct (is_stylecheck d || (os =? "windows")).
    - now apply depends_on_earlier_none.
    - exact (depends_on_earlier_one _ _ _ dl Hd Hin Hname). }
  assert (G : forall l e',
             In dl e' -> (forall d, In d l ->
                            In d (unittest_iteration os dev i pv)) ->
             all_resolved e' l).
  { induction l as [|d l IH]; intros e' Hin Hl; cbn [all_resolved]; [exact I|].
    split; [apply H; [exact Hin|apply Hl; now left]|].
    apply IH; [apply in_or_app; now left|intros d' Hd'; apply Hl; now right]. }
  apply G; auto.
Qed.

End Resolved.

(** X1: in the list of [build_workflows], for any prefix, upload flag and
    branch filter, a descriptor has at most one dependency, and the dependency
    is the name of a descriptor placed before it in the list. *)
Theorem build_workflows_requires_resolved :
  forall (prefix : string) (upload : bool) (filter_branch : option string)
         (before : list pyval) (d : pyval) (after : list pyval),
    build_workflows_w prefix upload filter_branch
      = (before ++ d :: after)%list ->
    depends_on_earlier before d.
Proof.
  intros prefix upload fb before d after Heq.
  apply (all_resolved_split [] (build_workflows_w prefix upload fb)
           before d after); [|exact Heq].
  unfold build_workflows_w. apply all_resolved_app. split.
  - cbn [build_download_job all_resolved]. split; [|exact I].
    apply depends_on_earlier_none. now rewrite requires_set_filters.
  - assert (Hdl : has_download ([] ++ build_download_job fb)%list).
    { eexists. split; [left; reflexivity|].
      now rewrite job_name_set_filters. }
    revert Hdl. generalize ([] ++ build_download_job fb)%list. intros e He.
    apply all_resolved_flat_map; [|exact He]. intros bt e1 He1.
    apply all_resolved_flat_map; [|exact He1]. intros os e2 He2.
    apply all_resolved_flat_map; [|exact He2]. intros pv e3 He3.
    now apply all_resolved_pair.
Qed.

Lemma build_workflows_requires_resolved_witness :
  depends_on_earlier
    (build_download_job None ++
     [generate_base_workflow "binary_linux_wheel_py3.6" "3.6" None
        "linux" "wheel"])%list
    (generate_upload_workflow "binary_linux_wheel_py3.6" None "wheel").
Proof.
  eapply (build_workflows_requires_resolved "" true None).
  reflexivity.
Defined.

(** X2: in the list of [unittest_workflows], for any list of python versions,
    a descriptor has at most one dependency, and the dependency is the name of
    a descriptor placed before it; the jobs for windows and the style check
    have none, every other test job requires exactly the download job. *)
Theorem unittest_requires_resolved :
  forall (versions : list string)
         (before : list pyval) (d : pyval) (after : list pyval),
    unittest_jobs_for versions = (before ++ d :: after)%list ->
    depends_on_earlier before d /\
    (before = [] \/
     exists os_type device_type i python_version,
       In d (unittest_iteration os_type device_type i python_version) /\
       requires d =
         if is_stylecheck d || (os_type =? "windows") then None
         else Some (PyList [PyStr "download_third_parties_nix"])).
Proof.
  intros versions before d after Heq. split.
  - apply (all_resolved_split [] (unittest_jobs_for versions)
             before d after); [|exact Heq].
    unfold unittest_jobs_for. apply all_resolved_app. split.
    + cbn. split; [|exact I]. now apply depends_on_earlier_none.
    + assert (Hdl : has_download ([] ++ build_download_job None)%list).
      { eexists. split; [left; reflexivity|reflexivity]. }
      revert Hdl. generalize ([] ++ build_download_job None)%list. intros e He.
      apply all_resolved_flat_map; [|exact He]. intros os e1 He1.
      apply all_resolved_flat_map; [|exact He1]. intros dev e2 He2.
      apply all_resolved_flat_map; [|exact He2]. intros [i pv] e3 He3.
      now apply all_resolved_unittest_iteration.
  - destruct before as [|b before]; [now left|right].
    assert (Hin : In d (flat_map (fun os_type =>
                     flat_map (fun device_type =>
                       flat_map (fun '(i, python_version) =>
                         unittest_iteration os_type device_type i
                           python_version) (Py.enumerate versions))
                       ["cpu"; "gpu"]) ["linux"; "windows"])).
    { change (In d (tl (unittest_jobs_for versions))).
      rewrite Heq. cbn [tl app]. apply in_or_app. right. now left. }
    apply in_flat_map in Hin as (os & _ & Hin).
    apply in_flat_map in Hin as (dev & _ & Hin).
    apply in_flat_map in Hin as ([i pv] & _ & Hin).
    exists os, dev, i, pv. split; [exact Hin|].
    exact (requires_unittest_iteration os dev i pv d Hin).
Qed.

Lemma unittest_requires_resolved_witness :
  depends_on_earlier (build_download_job None)
    (PyDict [("unittest_linux_cpu",
              PyDict [ ("name", PyStr "unittest_linux_cpu_py3.6");
                       ("python_version", PyStr "3.6");
                       ("requires", PyList [PyStr "download_third_parties_nix"]) ])]).
Proof.
  eapply (proj1 (unittest_requires_resolved PYTHON_VERSIONS _ _ _ _)).
  Unshelve. 2: reflexivity.
Defined.

(** ** The filter of one call *)

Lemma filters_set_filters_value k b d :
  b <> "" -> Py.dict_get "filters" d = None ->
  filters (PyDict [(k, PyDict (set_filters (Some b) d))]) =
  Some (gen_filter_branch_tree [b]).
Proof.
  intros Hb Hd. unfold filters, job_field; cbn [job_body].
  rewrite set_filters_filters by exact Hd.
  rewrite truthy_Some. apply String.eqb_neq in Hb. now rewrite Hb.
Qed.

Lemma filters_pair_value btype os pv b prefix upload d :
  b <> "" ->
  In d (build_workflow_pair btype os pv (Some b) prefix upload) ->
  filters d = Some (gen_filter_branch_tree [b]).
Proof.
  intros Hb. rewrite build_workflow_pair_shape. cbv zeta.
  assert (Hbase : forall n,
             filters (generate_base_workflow n pv (Some b) os btype) =
             Some (gen_filter_branch_tree [b])).
  { intros n. unfold generate_base_workflow.
    apply filters_set_filters_value; [exact Hb|].
    now destruct (Py.str_in os ["linux"; "macos"]). }
  destruct upload; [destruct (smoke_tested os pv (Some b))|];
    cbn [In]; intros H; decompose [or] H; subst; try contradiction;
    auto; now apply filters_set_filters_value.
Qed.

(** X3: when [build_workflows] is given a non-empty branch name, every
    descriptor of its list, the download job included, carries one and the
    same filter: only that branch, and the release-candidate tags. *)
Theorem build_workflows_same_filter :
  forall (prefix : string) (upload : bool) (branch : string) (d : pyval),
    branch <> "" ->
    In d (build_workflows_w prefix upload (Some branch)) ->
    filters d =
      Some (PyDict
              [ ("branches", PyDict [("only", PyList [PyStr branch])]);
                ("tags", PyDict [("only", PyStr "/v[0-9]+(\.[0-9]+)*-rc[0-9]+/")]) ]).
Proof.
  intros prefix upload b d Hb Hin.
  apply in_build_workflows_w in Hin as [Hin|(bt & os & pv & _ & _ & _ & Hin)].
  - destruct Hin as [<-|[]]. now apply filters_set_filters_value.
  - now apply filters_pair_value in Hin.
Qed.

Lemma build_workflows_same_filter_witness :
  filters
    (generate_upload_workflow "nightly_binary_linux_wheel_py3.6"
       (Some "nightly") "wheel") =
  Some (PyDict
          [ ("branches", PyDict [("only", PyList [PyStr "nightly"])]);
            ("tags", PyDict [("only", PyStr "/v[0-9]+(\.[0-9]+)*-rc[0-9]+/")]) ]).
Proof.
  apply (build_workflows_same_filter "nightly_" true "nightly").
  - discriminate.
  - right. right. left. reflexivity.
Defined.

(** ** Names across calls *)

Section Across.

Lemma length_append_string (a b : string) :
  String.length (a ++ b) = String.length a + String.length b.
Proof. induction a as [|c a IH]; simpl; [reflexivity|now rewrite IH]. Qed.

Lemma append_inj_r (p1 p2 t : string) : p1 ++ t = p2 ++ t -> p1 = p2.
Proof.
  revert p2. induction p1 as [|c p1 IH]; intros [|c2 p2] H.
  - reflexivity.
  - apply (f_equal String.length) in H. cbn in H.
    rewrite length_append_string in H. lia.
  - apply (f_equal String.length) in H. cbn in H.
    rewrite length_append_string in H. lia.
  - cbn in H. injection H as -> H. f_equal. now apply IH.
Qed.

Lemma append_suffix_cases (p1 p2 t1 t2 : string) :
  p1 ++ t1 = p2 ++ t2 -> ends_with t1 t2 = true \/ ends_with t2 t1 = true.
Proof.
  revert p2. induction p1 as [|c p1 IH]; intros p2 H.
  - cbn in H. subst t1. left. apply ends_with_append.
  - destruct p2 as [|c2 p2].
    + cbn [append] in H. subst t2. right.
      apply (ends_with_append (String c p1) t1).
    + cbn in H. injection H as _ H. now apply IH in H.
Qed.

Lemma all_name_tails_incl upload nightly t :
  In t (all_name_tails upload nightly) -> In t (all_name_tails true true).
Proof.
  intros H.
  assert (E : forallb (fun x => Py.str_in x (all_name_tails true true))
                (all_name_tails upload nightly) = true)
    by (destruct upload, nightly; vm_compute; reflexivity).
  rewrite forallb_forall in E. now apply str_in_In, E.
Qed.

Lemma all_name_tails_suffix_free t1 t2 :
  In t1 (all_name_tails true true) -> In t2 (all_name_tails true true) ->
  ends_with t1 t2 = true -> t1 = t2.
Proof.
  intros H1 H2 He.
  assert (E : forallb (fun a =>
                forallb (fun b => negb (ends_with a b) || (a =? b))
                  (all_name_tails true true))
                (all_name_tails true true) = true)
    by (vm_compute; reflexivity).
  rewrite forallb_forall in E. specialize (E t1 H1).
  rewrite forallb_forall in E. specialize (E t2 H2).
  rewrite He in E. now apply String.eqb_eq.
Qed.

Lemma job_name_in_build_workflows_w prefix upload fb d :
  In d (build_workflows_w prefix upload fb) ->
  job_name d = Some download_name \/
  exists t, In t (all_name_tails true true) /\ job_name d = Some (prefix ++ t).
Proof.
  intros Hin. apply (in_map job_name) in Hin.
  rewrite names_build_workflows_w in Hin. destruct Hin as [E|Hin].
  - now left.
  - right. apply in_map_iff in Hin as (t & E & Ht).
    exists t. split; [now apply all_name_tails_incl in Ht|now symmetry].
Qed.

Lemma unittest_name_not_prefixed o :
  In o (map job_name unittest_workflows_jobs) ->
  o = Some download_name \/
  exists n, o = Some n /\
    forallb (fun t => negb (ends_with n t)) (all_name_tails true true) = true.
Proof.
  intros H. vm_compute in H.
  decompose [or] H; try contradiction; subst o;
    try (left; reflexivity);
    right; eexists; (split; [reflexivity|vm_compute; reflexivity]).
Qed.

End Across.

(** X4: two lists of [build_workflows] made with different prefixes, for any
    upload flags and branch filters, have a single name in common, the
    download job's, which the prefix does not reach. *)
Theorem names_shared_across_prefixes :
  forall (prefix1 prefix2 : string) (upload1 upload2 : bool)
         (filter_branch1 filter_branch2 : option string) (d1 d2 : pyval),
    prefix1 <> prefix2 ->
    In d1 (build_workflows_w prefix1 upload1 filter_branch1) ->
    In d2 (build_workflows_w prefix2 upload2 filter_branch2) ->
    job_name d1 = job_name d2 ->
    job_name d1 = Some "download_third_parties_nix".
Proof.
  intros p1 p2 u1 u2 f1 f2 d1 d2 Hne H1 H2 E.
  apply job_name_in_build_workflows_w in H1 as [H1|(t1 & Ht1 & H1)];
    [exact H1|].
  apply job_name_in_build_workflows_w in H2 as [H2|(t2 & Ht2 & H2)];
    [now rewrite E|].
  exfalso. rewrite H1, H2 in E. injection E as E.
  destruct (append_suffix_cases _ _ _ _ E) as [Hs|Hs].
  - apply all_name_tails_suffix_free in Hs; [|assumption..].
    subst t2. now apply append_inj_r in E.
  - apply all_name_tails_suffix_free in Hs; [|assumption..].
    subst t2. now apply append_inj_r in E.
Qed.

Lemma names_shared_across_prefixes_witness :
  job_name (PyDict [("download_third_parties_nix",
                     PyDict [("name", PyStr "download_third_parties_nix")])])
  = Some "download_third_parties_nix".
Proof.
  apply (names_shared_across_prefixes "" "nightly_" false true None None
           (PyDict [("download_third_parties_nix",
                     PyDict [("name", PyStr "download_third_parties_nix")])])
           (PyDict [("download_third_parties_nix",
                     PyDict [("name", PyStr "download_third_parties_nix")])])).
  - discriminate.
  - left. reflexivity.
  - left. reflexivity.
  - reflexivity.
Defined.

(** X5: a list of [build_workflows], for any prefix, upload flag and branch
    filter, and the list of [unittest_workflows] have a single name in
    common, the download job's. *)
Theorem names_shared_with_unittest :
  forall (prefix : string) (upload : bool) (filter_branch : option string)
         (d1 d2 : pyval),
    In d1 (build_workflows_w prefix upload filter_branch) ->
    In d2 unittest_workflows_jobs ->
    job_name d1 = job_name d2 ->
    job_name d1 = Some "download_third_parties_nix".
Proof.
  intros p u f d1 d2 H1 H2 E.
  apply job_name_in_build_workflows_w in H1 as [H1|(t & Ht & H1)];
    [exact H1|].
  apply (in_map job_name) in H2.
  apply unittest_name_not_prefixed in H2 as [H2|(n & H2 & Hn)];
    [now rewrite E|].
  exfalso. rewrite H1, H2 in E. injection E as E.
  rewrite forallb_forall in Hn. specialize (Hn t Ht).
  rewrite <- E, ends_with_append in Hn. discriminate Hn.
Qed.

Lemma names_shared_with_unittest_witness :
  job_name (PyDict [("download_third_parties_nix",
                     PyDict [("name", PyStr "download_third_parties_nix")])])
  = Some "download_third_parties_nix".
Proof.
  apply (names_shared_with_unittest "" false None
           (PyDict [("download_third_parties_nix",
                     PyDict [("name", PyStr "download_third_parties_nix")])])
           (PyDict [("download_third_parties_nix",
                     PyDict [("name", PyStr "download_third_parties_nix")])])).
  - left. reflexivity.
  - left. reflexivity.
  - reflexivity.
Defined.

(** ** The lines of an indented block *)

Section Lines.

Lemma append_nil_r (s : string) : s ++ "" = s.
Proof. induction s as [|c s IH]; simpl; [reflexivity|now rewrite IH]. Qed.

Lemma no_linebreak_app a b :
  no_linebreak (a ++ b) = no_linebreak a && no_linebreak b.
Proof.
  induction a as [|c a IH]; simpl; [reflexivity|].
  now rewrite IH, andb_assoc.
Qed.

Lemma is_lf_linebreak c : Py.is_lf c = true -> Py.is_linebreak c = true.
Proof.
  unfold Py.is_lf, Py.is_linebreak. cbv zeta. intros ->. reflexivity.
Qed.

Lemma splitlines_from_no_linebreak s :
  forall cur after_cr,
    no_linebreak (cur_line cur) = true ->
    Forall (fun l => no_linebreak l = true) (Py.splitlines_from cur after_cr s).
Proof.
  induction s as [|c s IH]; intros cur b Hcur; cbn [Py.splitlines_from].
  - destruct cur; repeat constructor. exact Hcur.
  - destruct (b && Py.is_lf c); [now apply IH|].
    destruct (Py.is_linebreak c) eqn:Ec.
    + constructor; [exact Hcur|]. now apply IH.
    + apply IH. cbn [cur_line].
      fold (cur_line cur). rewrite no_linebreak_app, Hcur. cbn. now rewrite Ec.
Qed.

Lemma splitlines_no_linebreak s :
  Forall (fun l => no_linebreak l = true) (Py.splitlines s).
Proof. now apply splitlines_from_no_linebreak. Qed.

(** Reading a stretch without line boundary extends the current line. *)
Lemma splitlines_from_push l :
  no_linebreak l = true -> l <> "" ->
  forall cur after_cr s,
    Py.splitlines_from cur after_cr (l ++ s) =
    Py.splitlines_from (Some (cur_line cur ++ l)) false s.
Proof.
  induction l as [|c l IH]; intros Hl Hne cur b s; [contradiction|].
  cbn in Hl. apply andb_true_iff in Hl as [Hc Hl].
  apply negb_true_iff in Hc.
  cbn [append Py.splitlines_from].
  assert (Hlf : b && Py.is_lf c = false).
  { destruct (Py.is_lf c) eqn:E; [|apply andb_false_r].
    apply is_lf_linebreak in E. congruence. }
  rewrite Hlf, Hc. fold (cur_line cur).
  destruct l as [|c' l'].
  - reflexivity.
  - rewrite IH by (assumption || discriminate).
    cbn [cur_line]. now rewrite append_assoc.
Qed.

Lemma splitlines_from_push_some l c s :
  no_linebreak l = true ->
  Py.splitlines_from (Some c) false (l ++ s) =
  Py.splitlines_from (Some (c ++ l)) false s.
Proof.
  intros Hl. destruct l as [|x l].
  - now rewrite append_nil_r.
  - now rewrite splitlines_from_push by (assumption || discriminate).
Qed.

Lemma splitlines_from_newline cur s :
  Py.splitlines_from cur false (String (ascii_of_nat 10) s) =
  cur_line cur :: Py.splitlines_from None false s.
Proof. reflexivity. Qed.

Lemma no_linebreak_spaces n : no_linebreak (Py.repeat_char " "%char n) = true.
Proof. induction n as [|n IH]; [reflexivity|exact IH]. Qed.

Lemma splitlines_from_end l c :
  no_linebreak l = true ->
  Py.splitlines_from (Some c) false l = [c ++ l].
Proof.
  intros Hl. rewrite <- (append_nil_r l) at 1.
  now rewrite splitlines_from_push_some.
Qed.

(** The lines after the first of a joined block, [sp] being the non-empty
    indentation. *)
Lemma splitlines_join_later sp :
  no_linebreak sp = true -> sp <> "" ->
  forall ls l c,
    Forall (fun x => no_linebreak x = true) (l :: ls) ->
    Py.splitlines_from (Some c) false
      (String.concat (String (ascii_of_nat 10) sp) (l :: ls)) =
    (c ++ l) :: map (append sp) ls.
Proof.
  intros Hsp Hne. induction ls as [|l2 ls IH]; intros l c Hall.
  - cbn [String.concat map]. apply splitlines_from_end.
    now inversion Hall.
  - inversion Hall as [|? ? Hl Hrest]; subst.
    change (String.concat (String (ascii_of_nat 10) sp) (l :: l2 :: ls))
      with (l ++ String (ascii_of_nat 10)
                   (sp ++ String.concat (String (ascii_of_nat 10) sp) (l2 :: ls))).
    rewrite splitlines_from_push_some by exact Hl.
    rewrite splitlines_from_newline. cbn [cur_line map]. f_equal.
    rewrite splitlines_from_push by assumption.
    cbn [cur_line append]. now apply IH.
Qed.

Lemma splitlines_join sp lines :
  no_linebreak sp = true -> sp <> "" ->
  Forall (fun x => no_linebreak x = true) lines ->
  lines <> [""] ->
  Py.splitlines (String.concat (String (ascii_of_nat 10) sp) lines) =
  match lines with
  | [] => []
  | l :: ls => l :: map (append sp) ls
  end.
Proof.
  intros Hsp Hne Hall Hlines. unfold Py.splitlines.
  destruct lines as [|l ls]; [reflexivity|].
  destruct l as [|c l].
  - destruct ls as [|l2 ls]; [contradiction|].
    change (String.concat (String (ascii_of_nat 10) sp) ("" :: l2 :: ls))
      with (String (ascii_of_nat 10)
              (sp ++ String.concat (String (ascii_of_nat 10) sp) (l2 :: ls))).
    rewrite splitlines_from_newline. cbn [cur_line]. f_equal.
    rewrite splitlines_from_push by assumption.
    cbn [cur_line append]. apply splitlines_join_later; try assumption.
    now inversion Hall.
  - inversion Hall as [|? ? Hl Hrest]; subst.
    destruct ls as [|l2 ls].
    + cbn [String.concat map].
      rewrite <- (append_nil_r (String c l)) at 1.
      rewrite splitlines_from_push by (assumption || discriminate).
      reflexivity.
    + change (String.concat (String (ascii_of_nat 10) sp)
                (String c l :: l2 :: ls))
        with (String c l ++ String (ascii_of_nat 10)
                (sp ++ String.concat (String (ascii_of_nat 10) sp) (l2 :: ls))).
      rewrite splitlines_from_push by (assumption || discriminate).
      rewrite splitlines_from_newline. cbn [cur_line append]. f_equal.
      rewrite splitlines_from_push by assumption.
      cbn [cur_line append]. now apply splitlines_join_later.
Qed.

End Lines.

(** X6: with a positive indentation, the text that [indent] returns has the
    lines of the YAML dump, each line after the first preceded by that many
    spaces, whatever [yaml.dump] returns; the one exception is a dump that
    is a single empty line, for which the text is empty. *)
Theorem indent_lines :
  forall (yaml_dump : list pyval -> string) (indentation : Z)
         (data_list : list pyval),
    (0 < indentation)%Z ->
    Py.splitlines (yaml_dump data_list) <> [""] ->
    Py.splitlines (indent yaml_dump indentation data_list) =
    indented_lines indentation (Py.splitlines (yaml_dump data_list)).
Proof.
  intros yd i data Hi Hlines. unfold indent, Py.join, indented_lines.
  apply splitlines_join.
  - apply no_linebreak_spaces.
  - unfold Py.str_mul. destruct (Z.to_nat i) eqn:E; [lia|discriminate].
  - apply splitlines_no_linebreak.
  - exact Hlines.
Qed.

Lemma indent_lines_witness :
  Py.splitlines
    (indent (fun _ => "- a:" ++ String (ascii_of_nat 10) "    b: c"
                        ++ String (ascii_of_nat 10) "")
       2 []) =
  ["- a:"; "      b: c"].
Proof.
  apply (indent_lines
           (fun _ => "- a:" ++ String (ascii_of_nat 10) "    b: c"
                       ++ String (ascii_of_nat 10) "") 2 []).
  - reflexivity.
  - discriminate.
Defined.

(** ** Names of the test jobs for any list of versions *)

Section UnittestNames.

Lemma names_unittest_iteration os dev i pv :
  map job_name (unittest_iteration os dev i pv) =
  Some ("unittest_" ++ os ++ "_" ++ dev ++ "_py" ++ pv) ::
  (if (i =? 0)%nat && (os =? "linux") && (dev =? "cpu")
   then [Some ("stylecheck_py" ++ pv)] else []).
Proof.
  unfold unittest_iteration.
  destruct ((i =? 0)%nat && (os =? "linux") && (dev =? "cpu"));
    destruct (dev =? "gpu"); destruct (os =? "windows"); reflexivity.
Qed.

Lemma names_unittest_later os dev (vs : list string) :
  forall k, 1 <= k ->
    map job_name
      (flat_map (fun '(i, pv) => unittest_iteration os dev i pv)
         (combine (seq k (List.length vs)) vs)) =
    map (fun v => Some ("unittest_" ++ os ++ "_" ++ dev ++ "_py" ++ v)) vs.
Proof.
  induction vs as [|v vs IH]; intros k Hk; [reflexivity|].
  cbn [List.length seq combine flat_map map].
  rewrite map_app, names_unittest_iteration, IH by lia.
  destruct k as [|k]; [lia|]. reflexivity.
Qed.

Lemma names_unittest_loop os dev (vs : list string) :
  map job_name
    (flat_map (fun '(i, pv) => unittest_iteration os dev i pv)
       (Py.enumerate vs)) =
  match vs with
  | [] => []
  | v :: vs' =>
      Some ("unittest_" ++ os ++ "_" ++ dev ++ "_py" ++ v) ::
      List.app
        (if (os =? "linux") && (dev =? "cpu")
         then [Some ("stylecheck_py" ++ v)] else [])
        (map (fun v => Some ("unittest_" ++ os ++ "_" ++ dev ++ "_py" ++ v)) vs')
  end.
Proof.
  destruct vs as [|v vs]; [reflexivity|].
  rewrite enumerate_cons. cbn [flat_map].
  rewrite map_app, names_unittest_iteration, names_unittest_later by lia.
  reflexivity.
Qed.

Lemma names_unittest_jobs_for (vs : list string) :
  map job_name (unittest_jobs_for vs) =
  Some download_name ::
  List.app
    match vs with
    | [] => []
    | v :: vs' =>
        Some ("unittest_linux_cpu_py" ++ v) :: Some ("stylecheck_py" ++ v) ::
        map (fun v => Some ("unittest_linux_cpu_py" ++ v)) vs'
    end
    (List.app (map (fun v => Some ("unittest_linux_gpu_py" ++ v)) vs)
       (List.app (map (fun v => Some ("unittest_windows_cpu_py" ++ v)) vs)
          (map (fun v => Some ("unittest_windows_gpu_py" ++ v)) vs))).
Proof.
  unfold unittest_jobs_for. cbn [flat_map build_download_job app map].
  rewrite !map_app, !names_unittest_loop, !app_nil_r, <- !app_assoc.
  destruct vs as [|v vs]; reflexivity.
Qed.

End UnittestNames.

Ltac name_clash :=
  repeat match goal with
    | H : In _ (map _ _) |- _ => apply in_map_iff in H as (? & H & ?)
    | H : In _ (_ ++ _)%list |- _ => apply in_app_or in H as [H|H]
    | H : In _ (_ :: _) |- _ => destruct H as [H|H]
    | H : In _ [] |- _ => destruct H
    end;
  subst; try discriminate; try congruence.

(** X7: the names of the list of [unittest_workflows] are pairwise distinct
    for any list of python versions without repetition, and only for such
    lists: a version listed twice gives two jobs of one name. *)
Theorem unittest_names_unique_iff :
  forall versions : list string,
    NoDup (map job_name (unittest_jobs_for versions)) <-> NoDup versions.
Proof.
  intros vs. rewrite names_unittest_jobs_for. split.
  - intros H. apply NoDup_cons_iff in H as [_ H].
    apply NoDup_app_remove_l, NoDup_app_remove_l, NoDup_app_remove_l in H.
    now apply NoDup_map_inv in H.
  - intros Hvs.
    assert (Hmap : forall tag : string,
               NoDup (map (fun v => Some (tag ++ v)) vs)).
    { intros tag. apply NoDup_map_inj; [|exact Hvs].
      intros a b E. injection E as E. now apply append_inj_l in E. }
    constructor.
    + intros Hin. destruct vs as [|v vs']; name_clash.
    + apply NoDup_app; [| |].
      * destruct vs as [|v vs']; [constructor|].
        apply NoDup_cons_iff in Hvs as [Hv Hvs'].
        constructor; [|constructor].
        -- intros Hin. name_clash.
           injection Hin as Hin. subst. contradiction.
        -- intros Hin. name_clash.
        -- apply NoDup_map_inj; [|exact Hvs'].
           intros a b E. now injection E.
      * apply NoDup_app; [apply Hmap| |].
        -- apply NoDup_app; [apply Hmap|apply Hmap|].
           intros a H1 H2. name_clash.
        -- intros a H1 H2. name_clash.
      * intros a H1 H2. destruct vs as [|v vs']; name_clash.
Qed.

(** ** Job types *)

Section Keys.

Lemma keys_pair btype os pv fb prefix upload :
  map job_key (build_workflow_pair btype os pv fb prefix upload) =
  map Some (pair_keys btype os pv (Py.opt_eqb fb "nightly") upload).
Proof.
  rewrite build_workflow_pair_shape. cbv zeta.
  unfold pair_keys, smoke_tested.
  destruct upload; [destruct (Py.opt_eqb fb "nightly" && _)|]; reflexivity.
Qed.

Lemma keys_build_workflows_w prefix upload fb :
  map job_key (build_workflows_w prefix upload fb) =
  Some download_name :: map Some (all_keys upload (Py.opt_eqb fb "nightly")).
Proof.
  unfold build_workflows_w, all_keys. rewrite map_app.
  cbn [build_download_job map app job_key]. f_equal.
  rewrite !map_flat_map. apply flat_map_ext. intros btype.
  rewrite !map_flat_map. apply flat_map_ext. intros os.
  rewrite !map_flat_map. apply flat_map_ext. intros pv.
  apply keys_pair.
Qed.

Lemma length_filter_map {A B : Type} (f : A -> B) (g : B -> bool) l :
  List.length (filter (fun x => g (f x)) l) = List.length (filter g (map f l)).
Proof.
  induction l as [|x l IH]; cbn; [reflexivity|].
  destruct (g (f x)); cbn; now rewrite IH.
Qed.

End Keys.

(** X8: the job types of the list of [build_workflows] do not depend on the
    prefix: each is the download job, one of the six [binary_{os}_{btype}],
    one of the two [binary_{btype}_upload] or one of four smoke tests, pip
    for linux and windows wheels and conda for linux and windows conda
    packages, never for macos.  With upload and the ['nightly'] filter the
    list has twelve smoke tests, otherwise none. *)
Theorem build_workflows_job_types :
  forall (prefix : string) (upload : bool) (filter_branch : option string),
    (forall d, In d (build_workflows_w prefix upload filter_branch) ->
       In (job_key d)
         (map Some
            [ "download_third_parties_nix";
              "binary_linux_wheel"; "binary_macos_wheel"; "binary_windows_wheel";
              "binary_linux_conda"; "binary_macos_conda"; "binary_windows_conda";
              "binary_wheel_upload"; "binary_conda_upload";
              "smoke_test_linux_pip"; "smoke_test_windows_pip";
              "smoke_test_linux_conda"; "smoke_test_windows_conda" ])) /\
    List.length
      (filter is_smoketest (build_workflows_w prefix upload filter_branch)) =
      (if upload && Py.opt_eqb filter_branch "nightly" then 12 else 0).
Proof.
  intros prefix upload fb. split.
  - intros d Hin. apply (in_map job_key) in Hin.
    rewrite keys_build_workflows_w in Hin.
    revert Hin. generalize (job_key d). intros o Hin.
    destruct upload, (Py.opt_eqb fb "nightly"); vm_compute in Hin;
      decompose [or] Hin; try contradiction; subst o; vm_compute; tauto.
  - unfold is_smoketest, key_startswith.
    rewrite (length_filter_map job_key
               (fun o => match o with
                         | Some k => Py.startswith k "smoke_test_"
                         | None => false
                         end)).
    rewrite keys_build_workflows_w.
    destruct upload, (Py.opt_eqb fb "nightly"); reflexivity.
Qed.


(** ** Line boundaries of the text *)

Section LineFeeds.

Lemma only_line_feeds_app a b :
  only_line_feeds (a ++ b) = only_line_feeds a && only_line_feeds b.
Proof.
  induction a as [|c a IH]; simpl; [reflexivity|].
  now rewrite IH, andb_assoc.
Qed.

Lemma no_linebreak_only_line_feeds l :
  no_linebreak l = true -> only_line_feeds l = true.
Proof.
  induction l as [|c l IH]; simpl; [reflexivity|].
  rewrite andb_true_iff. intros [-> Hl]. now rewrite IH.
Qed.

Lemma only_line_feeds_concat sep lines :
  only_line_feeds sep = true ->
  Forall (fun l => no_linebreak l = true) lines ->
  only_line_feeds (String.concat sep lines) = true.
Proof.
  intros Hsep. induction 1 as [|l ls Hl Hls IH]; [reflexivity|].
  destruct ls as [|l2 ls].
  - now apply no_linebreak_only_line_feeds.
  - change (String.concat sep (l :: l2 :: ls))
      with (l ++ sep ++ String.concat sep (l2 :: ls)).
    rewrite !only_line_feeds_app, Hsep, IH.
    now rewrite no_linebreak_only_line_feeds.
Qed.

End LineFeeds.

(** X9: for any indentation, positive or not, and whatever [yaml.dump]
    returns, the only line boundaries of the text that [indent] returns are
    line feeds: carriage returns and the other boundaries of the dump are
    replaced. *)
Theorem indent_only_line_feeds :
  forall (yaml_dump : list pyval -> string) (indentation : Z)
         (data_list : list pyval),
    only_line_feeds (indent yaml_dump indentation data_list) = true.
Proof.
  intros yd i data. unfold indent, Py.join.
  apply only_line_feeds_concat.
  - cbn [only_line_feeds]. apply no_linebreak_only_line_feeds.
    apply no_linebreak_spaces.
  - apply splitlines_no_linebreak.
Qed.

(** ** One base descriptor for each point of the matrix *)



